(** * service/user.go: the in-memory user service

    A shallow embedding of package [service] (file [service/user.go]): the
    [userService] struct with its two maps, the five methods of the
    [UserService] interface, and the library functions they call.

    Go strings are byte sequences, so they are Rocq [string]s (lists of 8-bit
    [ascii]). Go maps are [gmap]s. A Go result pair [(T, error)] is a Rocq
    pair [T * option error], [None] being the [nil] error: the source returns
    both components on every path and one method ([SendMainTemplateData])
    returns a meaningful value next to a non-nil error. *)

From Stdlib Require Import Ascii String NArith List Lia.
From stdpp Require Import gmap strings.

(** ** [strings.TrimSpace]

    The library function removes leading and trailing white space "as defined
    by Unicode" from the UTF-8 bytes of its argument. A rune is white space
    ([unicode.IsSpace]) when it is one of
    U+0009..U+000D, U+0020, U+0085, U+00A0, U+1680, U+2000..U+200A, U+2028,
    U+2029, U+202F, U+205F, U+3000. The decoder accepts shortest encodings
    only, so a white-space rune is exactly one of the byte sequences below. *)

Module Strings.

#[local] Open Scope N_scope.

(** The table [asciiSpace]: tab, newline, vertical tab, form feed, carriage
    return and space. *)
Definition asciiSpace (c : ascii) : bool :=
  let n := N_of_ascii c in
  (n =? 9) || (n =? 10) || (n =? 11) || (n =? 12) || (n =? 13) || (n =? 32).

(** Two-byte white space: U+0085 is [C2 85] and U+00A0 is [C2 A0]. *)
Definition space2 (c0 c1 : ascii) : bool :=
  (N_of_ascii c0 =? 194) && ((N_of_ascii c1 =? 133) || (N_of_ascii c1 =? 160)).

(** Three-byte white space: U+1680 is [E1 9A 80]; U+2000..U+200A are
    [E2 80 80]..[E2 80 8A]; U+2028, U+2029 and U+202F are [E2 80 A8],
    [E2 80 A9] and [E2 80 AF]; U+205F is [E2 81 9F]; U+3000 is [E3 80 80]. *)
Definition space3 (c0 c1 c2 : ascii) : bool :=
  let n0 := N_of_ascii c0 in
  let n1 := N_of_ascii c1 in
  let n2 := N_of_ascii c2 in
  ((n0 =? 225) && (n1 =? 154) && (n2 =? 128))
  || ((n0 =? 226) && (n1 =? 128)
      && (((128 <=? n2) && (n2 <=? 138)) || (n2 =? 168) || (n2 =? 169) || (n2 =? 175)))
  || ((n0 =? 226) && (n1 =? 129) && (n2 =? 159))
  || ((n0 =? 227) && (n1 =? 128) && (n2 =? 128)).

(** [TrimLeftFunc s unicode.IsSpace] on the bytes of [s]: white-space runes
    are dropped from the front until a rune that is not white space (or an
    invalid byte, which decodes to U+FFFD) is met. *)
Fixpoint trimLeft (s : list ascii) : list ascii :=
  match s with
  | [] => []
  | c0 :: r0 =>
      if asciiSpace c0 then trimLeft r0 else
      match r0 with
      | [] => s
      | c1 :: r1 =>
          if space2 c0 c1 then trimLeft r1 else
          match r1 with
          | [] => s
          | c2 :: r2 => if space3 c0 c1 c2 then trimLeft r2 else s
          end
      end
  end.

(** The same scan on the reversed bytes: [TrimRightFunc] decodes backwards
    from the end, and a white-space rune ends the string exactly when its
    encoding is a suffix of the bytes. *)
Fixpoint trimLeftRev (s : list ascii) : list ascii :=
  match s with
  | [] => []
  | c0 :: r0 =>
      if asciiSpace c0 then trimLeftRev r0 else
      match r0 with
      | [] => s
      | c1 :: r1 =>
          if space2 c1 c0 then trimLeftRev r1 else
          match r1 with
          | [] => s
          | c2 :: r2 => if space3 c2 c1 c0 then trimLeftRev r2 else s
          end
      end
  end.

Definition trimRight (s : list ascii) : list ascii :=
  List.rev (trimLeftRev (List.rev s)).

Definition TrimSpace (s : string) : string :=
  string_of_list_ascii (trimRight (trimLeft (list_ascii_of_string s))).

(** A string made of white-space runes only (the empty string included). *)
Inductive blank : list ascii -> Prop :=
| blank_nil : blank []
| blank_ascii c0 s : asciiSpace c0 = true -> blank s -> blank (c0 :: s)
| blank_two c0 c1 s : space2 c0 c1 = true -> blank s -> blank (c0 :: c1 :: s)
| blank_three c0 c1 c2 s :
    space3 c0 c1 c2 = true -> blank s -> blank (c0 :: c1 :: c2 :: s).

Definition Blank (s : string) : Prop := blank (list_ascii_of_string s).

(** The same, read from the last byte to the first. *)
Inductive blankRev : list ascii -> Prop :=
| blankRev_nil : blankRev []
| blankRev_ascii c0 s : asciiSpace c0 = true -> blankRev s -> blankRev (c0 :: s)
| blankRev_two c0 c1 s : space2 c1 c0 = true -> blankRev s -> blankRev (c0 :: c1 :: s)
| blankRev_three c0 c1 c2 s :
    space3 c2 c1 c0 = true -> blankRev s -> blankRev (c0 :: c1 :: c2 :: s).

End Strings.

Export Strings.

(** ** Errors

    [errors.New] (which [fmt.Errorf] calls when its format has no [%w])
    builds an [errorString]; [fmt.Errorf] with one [%w] builds a [wrapError]
    that keeps the formatted message and the wrapped error. *)

Inductive error : Type :=
| errorString (s : string)
| wrapError (msg : string) (err : error).

Definition Error (e : error) : string :=
  match e with
  | errorString s => s
  | wrapError msg _ => msg
  end.

(** [fmt.Errorf(msg)] for a format without verbs. *)
Definition Errorf (msg : string) : error := errorString msg.

(** [fmt.Errorf(prefix + "%w", err)]. *)
Definition Errorf_w (prefix : string) (err : error) : error :=
  wrapError (prefix +:+ Error err) err.

(** ** The data model *)

Definition MainTemplate : string := "main.gohtml".

Record UserFields : Type :=
  { Username : string;
    HashedPassword : string }.

Module TemplateMetadata.
Record t : Type :=
  { Name : string }.
End TemplateMetadata.

Module TemplateVariables.
Record t : Type :=
  { Name : string;
    LoginMessage : string;
    ErrorMessage : option error;
    Session : string;
    User : string }.

(** The zero value [TemplateVariables{}]. *)
Definition zero : t :=
  {| Name := ""; LoginMessage := ""; ErrorMessage := None; Session := ""; User := "" |}.
End TemplateVariables.

Record TemplateRender : Type :=
  { Metadata : TemplateMetadata.t;
    Variables : TemplateVariables.t }.

(** The struct [userService]. Both fields are Go maps, that is references:
    a method with a value receiver ([Login], [Logout]) still writes to the
    maps every other method sees, so every method threads the whole struct. *)
Record userService : Type :=
  { users : gmap string UserFields;
    sessions : gmap string string }.

(** ** The collaborators

    [ParseToken] and [CreateToken] are functions of the package declared in
    another file; [bcrypt.GenerateFromPassword] and
    [bcrypt.CompareHashAndPassword] come from golang.org/x/crypto. They are
    the interface the service is written against. [GenerateFromPassword]
    draws a random salt, which is its first argument here. *)
Class Collaborators : Type :=
  { ParseToken : string -> string * option error;
    CreateToken : string -> string * option error;
    GenerateFromPassword : string -> string -> Z -> string * option error;
    CompareHashAndPassword : string -> string -> option error }.

(** [bcrypt.DefaultCost]. *)
Definition DefaultCost : Z := 10.

Section Service.

Context `{env : Collaborators}.

Definition NewUserService : userService :=
  {| users := ∅; sessions := ∅ |}.

Definition HealthCheck (u : userService) : string := "ok".

Definition hashValue (salt v : string) : string * option error :=
  match GenerateFromPassword salt v DefaultCost with
  | (_, Some err) => ("", Some err)
  | (hash, None) => (hash, None)
  end.

Definition checkPasswordHash (pass hash : string) : option error :=
  CompareHashAndPassword hash pass.

Definition SendMainTemplateData (u : userService) (token : string)
  : TemplateRender * option error :=
  if decide (TrimSpace token = "") then
    ({| Metadata := {| TemplateMetadata.Name := MainTemplate |};
        Variables := TemplateVariables.zero |}, None)
  else
    match ParseToken token with
    | (_, Some err) =>
        ({| Metadata := {| TemplateMetadata.Name := MainTemplate |};
            Variables := TemplateVariables.zero |},
         Some (Errorf_w "error while parsing token: " err))
    | (sessionID, None) =>
        match sessions u !! sessionID with
        | None =>
            ({| Metadata := {| TemplateMetadata.Name := MainTemplate |};
                Variables := TemplateVariables.zero |},
             Some (Errorf "session not registered"))
        | Some user =>
            ({| Metadata := {| TemplateMetadata.Name := MainTemplate |};
                Variables :=
                  {| TemplateVariables.Name := "";
                     TemplateVariables.LoginMessage := "";
                     TemplateVariables.ErrorMessage := None;
                     TemplateVariables.Session := token;
                     TemplateVariables.User := user |} |}, None)
        end
    end.

(** [salt] is the randomness [bcrypt.GenerateFromPassword] draws in this
    call. *)
Definition Register (u : userService) (user pass : string) (salt : string)
  : (string * option error) * userService :=
  match users u !! user with
  | Some _ => (("", Some (Errorf "user already registered")), u)
  | None =>
      match hashValue salt pass with
      | (_, Some err) => (("", Some (Errorf_w "error while hashing pass: " err)), u)
      | (hashedPass, None) =>
          (("REGISTER SUCCESSFUL", None),
           {| users := <[user := {| Username := user; HashedPassword := hashedPass |}]> (users u);
              sessions := sessions u |})
      end
  end.

(** [uuid] is the value of [uuid.New().String()] in this call. *)
Definition Login (u : userService) (user pass : string) (uuid : string)
  : (string * option error) * userService :=
  match users u !! user with
  | None => (("", Some (Errorf "user not registered")), u)
  | Some userFields =>
      match checkPasswordHash pass (HashedPassword userFields) with
      | Some err => (("", Some (Errorf_w "error while checking passwords: " err)), u)
      | None =>
          let sessionID := uuid in
          let u1 := {| users := users u; sessions := <[sessionID := user]> (sessions u) |} in
          match CreateToken sessionID with
          | (_, Some err) => (("", Some (Errorf_w "error while creating token: " err)), u1)
          | (token, None) => ((token, None), u1)
          end
      end
  end.

Definition Logout (u : userService) (token : string) : option error * userService :=
  match ParseToken token with
  | (_, Some err) => (Some (Errorf_w "error while parsing token: " err), u)
  | (sessionID, None) =>
      match sessions u !! sessionID with
      | None => (Some (Errorf "session not registered during logout"), u)
      | Some _ =>
          (None, {| users := users u; sessions := delete sessionID (sessions u) |})
      end
  end.

(** *** Calls of the interface and their effect on the service *)

Inductive call : Type :=
| CallHealthCheck
| CallSendMainTemplateData (token : string)
| CallRegister (user pass salt : string)
| CallLogin (user pass uuid : string)
| CallLogout (token : string).

Definition run (u : userService) (c : call) : userService :=
  match c with
  | CallHealthCheck => u
  | CallSendMainTemplateData _ => u
  | CallRegister user pass salt => snd (Register u user pass salt)
  | CallLogin user pass uuid => snd (Login u user pass uuid)
  | CallLogout token => snd (Logout u token)
  end.

Definition run_all (u : userService) (cs : list call) : userService :=
  fold_left run cs u.

(** *** Registration as the specification words it

    "hashes password via Password Hasher, then calls User Store [Create]",
    where [Create] "fails (AlreadyRegistered) if key exists, else inserts". *)

Definition UserStore_Create (u : userService) (username hashedPassword : string)
  : option error * userService :=
  match users u !! username with
  | Some _ => (Some (Errorf "user already registered"), u)
  | None =>
      (None,
       {| users := <[username := {| Username := username; HashedPassword := hashedPassword |}]> (users u);
          sessions := sessions u |})
  end.

Definition Register_hash_then_create (u : userService) (user pass : string) (salt : string)
  : (string * option error) * userService :=
  match hashValue salt pass with
  | (_, Some err) => (("", Some (Errorf_w "error while hashing pass: " err)), u)
  | (hashedPass, None) =>
      match UserStore_Create u user hashedPass with
      | (Some err, u1) => (("", Some err), u1)
      | (None, u1) => (("REGISTER SUCCESSFUL", None), u1)
      end
  end.

End Service.

(** ** Collaborators for the worked examples

    A token is its session identifier behind a fixed prefix, a hash is the
    password behind a fixed prefix, and passwords over 72 bytes are refused
    as [bcrypt] refuses them. *)

Definition stub_prefix : string := "tok.".

Fixpoint strip_prefix (p s : string) : option string :=
  match p with
  | EmptyString => Some s
  | String a p1 =>
      match s with
      | EmptyString => None
      | String b s1 => if decide (a = b) then strip_prefix p1 s1 else None
      end
  end.

Definition stub_ParseToken (token : string) : string * option error :=
  match strip_prefix stub_prefix token with
  | Some sessionID => (sessionID, None)
  | None => ("", Some (errorString "token is malformed"))
  end.

Definition stub_CreateToken (sessionID : string) : string * option error :=
  (stub_prefix +:+ sessionID, None).

Definition stub_Generate (salt password : string) (cost : Z) : string * option error :=
  if decide (72 < String.length password)%nat
  then ("", Some (errorString "bcrypt: password length exceeds 72 bytes"))
  else ("$2a$" +:+ password, None).

Definition stub_Compare (hash password : string) : option error :=
  if decide (hash = "$2a$" +:+ password) then None
  else Some (errorString "crypto/bcrypt: hashedPassword is not the hash of the given password").

Definition stubs : Collaborators :=
  {| ParseToken := stub_ParseToken;
     CreateToken := stub_CreateToken;
     GenerateFromPassword := stub_Generate;
     CompareHashAndPassword := stub_Compare |}.

(** The same collaborators with a token signer that fails. *)
Definition stubs_no_signer : Collaborators :=
  {| ParseToken := stub_ParseToken;
     CreateToken := fun _ => ("", Some (errorString "signing key is not available"));
     GenerateFromPassword := stub_Generate;
     CompareHashAndPassword := stub_Compare |}.

(** Inputs of the worked examples: a session identifier as [uuid] prints
    them, a password of 73 bytes, and a service where alice has registered
    and logged in. *)

Definition uuid1 : string := "123e4567-e89b-12d3-a456-426614174000".

Definition long_password : string :=
  "aaaaaaaaaaaaaaaaaaaaaaaaaaaaaaaaaaaaaaaaaaaaaaaaaaaaaaaaaaaaaaaaaaaaaaaaa".

Definition alice_registered (env : Collaborators) : userService :=
  snd (Register NewUserService "alice" "s3cret" "salt").

Definition alice_logged_in (env : Collaborators) : userService :=
  snd (Login (alice_registered env) "alice" "s3cret" uuid1).

(** ** What the service expects of its collaborators

    The token codec is a reversible encoding of session identifiers into
    opaque, non-blank strings, and the password hasher accepts the password a
    digest was made from. *)

Section Contracts.

Context `{env : Collaborators}.

Definition codec_round_trip : Prop :=
  forall sessionID token : string,
    CreateToken sessionID = (token, None) -> ParseToken token = (sessionID, None).

Definition codec_rejects_blank : Prop :=
  forall token : string, Blank token -> snd (ParseToken token) <> None.


End Contracts.

(** The context every failure path of [SendMainTemplateData] returns. *)
Definition anonymous : TemplateRender :=
  {| Metadata := {| TemplateMetadata.Name := MainTemplate |};
     Variables := TemplateVariables.zero |}.

(** ** Invariants of the two maps

    What [Register], [Login] and [Logout] keep true of the maps they write. *)

(** A record is stored under its own [Username]. *)
Definition users_keyed_by_name (u : userService) : Prop :=
  forall (key : string) (uf : UserFields),
    users u !! key = Some uf -> Username uf = key.

(** A stored [HashedPassword] is a hash [bcrypt.GenerateFromPassword] returned
    with a nil error at [DefaultCost]. *)
Definition users_hold_hashes `{env : Collaborators} (u : userService) : Prop :=
  forall (key : string) (uf : UserFields),
    users u !! key = Some uf ->
    exists salt pass : string,
      GenerateFromPassword salt pass DefaultCost = (HashedPassword uf, None).

(** A session belongs to a user of the users map. *)
Definition sessions_belong_to_users (u : userService) : Prop :=
  forall sessionID user : string,
    sessions u !! sessionID = Some user -> is_Some (users u !! user).

(** The context [SendMainTemplateData] returns for a live session. *)
Definition authenticated (token user : string) : TemplateRender :=
  {| Metadata := {| TemplateMetadata.Name := MainTemplate |};
     Variables :=
       {| TemplateVariables.Name := "";
          TemplateVariables.LoginMessage := "";
          TemplateVariables.ErrorMessage := None;
          TemplateVariables.Session := token;
          TemplateVariables.User := user |} |}.

(** A second session identifier and the state where alice holds both. *)
Definition uuid2 : string := "0b9f8a52-4c1d-4e7a-9d3e-6f2a1c5b7e90".

Definition alice_logged_in_twice (env : Collaborators) : userService :=
  snd (Login (alice_logged_in env) "alice" "s3cret" uuid2).

(** * Properties *)

(** ** [strings.TrimSpace] is empty exactly on white-space-only strings *)

Module StringsFacts.

#[local] Open Scope N_scope.

Ltac bytes :=
  unfold asciiSpace, space2, space3 in *;
  try (apply not_true_iff_false; intro);
  repeat match goal with
    | H : _ = true |- _ =>
        repeat (setoid_rewrite andb_true_iff in H
                || setoid_rewrite orb_true_iff in H
                || setoid_rewrite N.eqb_eq in H
                || setoid_rewrite N.leb_le in H);
        revert H
    end;
  lia.

Lemma space2_lead c0 c1 : space2 c0 c1 = true -> asciiSpace c0 = false.
Proof. intros Hs. bytes. Qed.

Lemma space3_lead c0 c1 c2 :
  space3 c0 c1 c2 = true -> asciiSpace c0 = false /\ space2 c0 c1 = false.
Proof. intros Hs. split; bytes. Qed.

Lemma trimLeft_blank s : blank s -> trimLeft s = [].
Proof.
  induction 1 as [|c0 s Hc _ IH|c0 c1 s Hc _ IH|c0 c1 c2 s Hc _ IH]; simpl.
  - reflexivity.
  - now rewrite Hc.
  - now rewrite (space2_lead _ _ Hc), Hc.
  - destruct (space3_lead _ _ _ Hc) as [-> ->]. now rewrite Hc.
Qed.

Lemma trimLeft_nil_blank s : trimLeft s = [] -> blank s.
Proof.
  remember (length s) as n eqn:Hn.
  revert s Hn. induction (lt_wf n) as [n _ IH]. intros s -> Hs.
  destruct s as [|c0 r0]; [constructor|]. simpl in Hs.
  destruct (asciiSpace c0) eqn:H0.
  { apply blank_ascii; [done|]. eapply IH; [|reflexivity|done]. simpl; lia. }
  destruct r0 as [|c1 r1]; [done|].
  destruct (space2 c0 c1) eqn:H1.
  { apply blank_two; [done|]. eapply IH; [|reflexivity|done]. simpl; lia. }
  destruct r1 as [|c2 r2]; [done|].
  destruct (space3 c0 c1 c2) eqn:H2; [|done].
  apply blank_three; [done|]. eapply IH; [|reflexivity|done]. simpl; lia.
Qed.

Lemma trimLeftRev_nil_blankRev s : trimLeftRev s = [] -> blankRev s.
Proof.
  remember (length s) as n eqn:Hn.
  revert s Hn. induction (lt_wf n) as [n _ IH]. intros s -> Hs.
  destruct s as [|c0 r0]; [constructor|]. simpl in Hs.
  destruct (asciiSpace c0) eqn:H0.
  { apply blankRev_ascii; [done|]. eapply IH; [|reflexivity|done]. simpl; lia. }
  destruct r0 as [|c1 r1]; [done|].
  destruct (space2 c1 c0) eqn:H1.
  { apply blankRev_two; [done|]. eapply IH; [|reflexivity|done]. simpl; lia. }
  destruct r1 as [|c2 r2]; [done|].
  destruct (space3 c2 c1 c0) eqn:H2; [|done].
  apply blankRev_three; [done|]. eapply IH; [|reflexivity|done]. simpl; lia.
Qed.

Lemma trimLeft_idem s : trimLeft (trimLeft s) = trimLeft s.
Proof.
  remember (length s) as n eqn:Hn.
  revert s Hn. induction (lt_wf n) as [n _ IH]. intros s ->.
  destruct s as [|c0 r0]; [done|]. simpl.
  destruct (asciiSpace c0) eqn:H0.
  { eapply IH; [|reflexivity]. simpl; lia. }
  destruct r0 as [|c1 r1]; [simpl; now rewrite H0|].
  destruct (space2 c0 c1) eqn:H1.
  { eapply IH; [|reflexivity]. simpl; lia. }
  destruct r1 as [|c2 r2]; [simpl; now rewrite H0, H1|].
  destruct (space3 c0 c1 c2) eqn:H2.
  { eapply IH; [|reflexivity]. simpl; lia. }
  simpl. now rewrite H0, H1, H2.
Qed.

Lemma blank_app s t : blank s -> blank t -> blank (s ++ t).
Proof.
  induction 1; intros Ht; simpl; [done|..].
  - apply blank_ascii; auto.
  - apply blank_two; auto.
  - apply blank_three; auto.
Qed.

Lemma blankRev_rev s : blankRev s -> blank (List.rev s).
Proof.
  induction 1 as [|c0 s Hc _ IH|c0 c1 s Hc _ IH|c0 c1 c2 s Hc _ IH]; simpl.
  - constructor.
  - apply blank_app; [done|]. apply blank_ascii; [done|constructor].
  - rewrite <- !app_assoc. apply blank_app; [done|]. simpl.
    apply blank_two; [done|constructor].
  - rewrite <- !app_assoc. apply blank_app; [done|]. simpl.
    apply blank_three; [done|constructor].
Qed.

Lemma trimRight_nil_blank s : trimRight s = [] -> blank s.
Proof.
  unfold trimRight. intros Hs.
  assert (trimLeftRev (List.rev s) = []) as Hr.
  { destruct (trimLeftRev (List.rev s)) as [|c r]; [done|].
    simpl in Hs. now destruct (List.rev r). }
  apply trimLeftRev_nil_blankRev, blankRev_rev in Hr.
  now rewrite rev_involutive in Hr.
Qed.

Lemma string_of_list_ascii_nil l : string_of_list_ascii l = "" -> l = [].
Proof. now destruct l. Qed.

(** [TrimSpace s] is the empty string exactly when [s] is empty or made of
    white space only: the guard of [SendMainTemplateData] is the test for a
    blank token. *)
Lemma TrimSpace_empty_iff (s : string) : TrimSpace s = "" <-> Blank s.
Proof.
  unfold TrimSpace, Blank. split.
  - intros Hs. apply string_of_list_ascii_nil, trimRight_nil_blank in Hs.
    apply trimLeft_blank in Hs. rewrite trimLeft_idem in Hs.
    now apply trimLeft_nil_blank.
  - intros Hs. now rewrite (trimLeft_blank _ Hs).
Qed.

End StringsFacts.

(** ** The stub collaborators honour the contracts *)

Lemma strip_prefix_app (p s : string) : strip_prefix p (p +:+ s) = Some s.
Proof.
  induction p as [|a p IH]; simpl; [done|].
  destruct (decide (a = a)); [apply IH|done].
Qed.

Lemma stubs_round_trip : codec_round_trip (env := stubs).
Proof.
  intros sessionID token Hc. simpl in *. unfold stub_CreateToken in Hc.
  inversion Hc; subst. unfold stub_ParseToken.
  now rewrite strip_prefix_app.
Qed.

Lemma stub_ParseToken_blank (token : string) :
  Blank token -> snd (stub_ParseToken token) <> None.
Proof.
  unfold Blank, stub_ParseToken. intros Hb.
  destruct token as [|a token]; [simpl; discriminate|].
  simpl. destruct (decide ("t"%char = a)) as [<-|]; [|simpl; discriminate].
  exfalso. simpl in Hb. inversion Hb as [|? ? Hc|? ? ? Hc|? ? ? ? Hc]; subst;
    vm_compute in Hc; discriminate.
Qed.

Lemma stubs_rejects_blank : codec_rejects_blank (env := stubs).
Proof. intros token. apply stub_ParseToken_blank. Qed.


(** ** The session context *)

Section Rendering.

Context `{env : Collaborators}.

Lemma SendMainTemplateData_of_blank (u : userService) (token : string) :
  Blank token -> SendMainTemplateData u token = (anonymous, None).
Proof.
  intros Hb. apply StringsFacts.TrimSpace_empty_iff in Hb.
  unfold SendMainTemplateData. now case_decide.
Qed.

Lemma SendMainTemplateData_of_not_blank (u : userService) (token : string) :
  ~ Blank token ->
  SendMainTemplateData u token =
    match ParseToken token with
    | (_, Some err) => (anonymous, Some (Errorf_w "error while parsing token: " err))
    | (sessionID, None) =>
        match sessions u !! sessionID with
        | None => (anonymous, Some (Errorf "session not registered"))
        | Some user =>
            ({| Metadata := {| TemplateMetadata.Name := MainTemplate |};
                Variables :=
                  {| TemplateVariables.Name := "";
                     TemplateVariables.LoginMessage := "";
                     TemplateVariables.ErrorMessage := None;
                     TemplateVariables.Session := token;
                     TemplateVariables.User := user |} |}, None)
        end
    end.
Proof.
  intros Hb. unfold SendMainTemplateData.
  case_decide as Ht; [|done].
  now apply StringsFacts.TrimSpace_empty_iff in Ht.
Qed.

(** C3. For every state of the service, [SendMainTemplateData] on an empty or
    white-space-only token returns a nil error and the anonymous context:
    main template name, empty [Session], empty [User], nil [ErrorMessage]. *)
Theorem SendMainTemplateData_blank_token (u : userService) (token : string) :
  Blank token ->
  exists ctx : TemplateRender,
    SendMainTemplateData u token = (ctx, None)
    /\ TemplateVariables.Session (Variables ctx) = ""
    /\ TemplateVariables.User (Variables ctx) = ""
    /\ TemplateVariables.ErrorMessage (Variables ctx) = None
    /\ ctx = anonymous.
Proof.
  intros Hb. exists anonymous. now rewrite SendMainTemplateData_of_blank.
Qed.

(** C8. For a token that is not blank, when [ParseToken] fails or the session
    it decodes to is not in the sessions map, [SendMainTemplateData] returns
    the anonymous context (main template name, zero variables) together with
    a non-nil error: the wrapped decode error in the first case, "session not
    registered" in the second. *)
Theorem SendMainTemplateData_failure_context (u : userService) (token : string) :
  ~ Blank token ->
  snd (ParseToken token) <> None \/ sessions u !! fst (ParseToken token) = None ->
  exists e : error,
    SendMainTemplateData u token = (anonymous, Some e)
    /\ Variables anonymous = TemplateVariables.zero
    /\ TemplateMetadata.Name (Metadata anonymous) = MainTemplate
    /\ e = match snd (ParseToken token) with
           | Some err => Errorf_w "error while parsing token: " err
           | None => Errorf "session not registered"
           end.
Proof.
  intros Hb Hfail. rewrite SendMainTemplateData_of_not_blank by done.
  destruct (ParseToken token) as [sessionID [err|]]; simpl in *.
  - eauto.
  - destruct Hfail as [Hfail| ->]; [done|]. eauto.
Qed.

(** C10. On every path of [SendMainTemplateData] (blank token, decode
    failure, unknown session, success) the returned [TemplateRender] has
    [Metadata.Name] equal to the constant ["main.gohtml"]. *)
Theorem SendMainTemplateData_template_name (u : userService) (token : string) :
  TemplateMetadata.Name (Metadata (fst (SendMainTemplateData u token))) = MainTemplate
  /\ MainTemplate = "main.gohtml".
Proof.
  split; [|reflexivity].
  unfold SendMainTemplateData. case_decide; [done|].
  destruct (ParseToken token) as [sessionID [err|]]; [done|].
  now destruct (sessions u !! sessionID).
Qed.

End Rendering.

(** ** Registration *)

Section Registration.

Context `{env : Collaborators}.

Lemma hashValue_error (salt v hash : string) (err : error) :
  hashValue salt v = (hash, Some err) ->
  hash = "" /\ snd (GenerateFromPassword salt v DefaultCost) = Some err.
Proof.
  unfold hashValue.
  destruct (GenerateFromPassword salt v DefaultCost) as [h [e|]]; simpl;
    now intros [= <- <-].
Qed.

Lemma Register_registered (u : userService) (user pass salt : string) :
  is_Some (users u !! user) ->
  Register u user pass salt = (("", Some (Errorf "user already registered")), u).
Proof. intros [uf Hu]. unfold Register. now rewrite Hu. Qed.

Lemma Register_success (u u1 : userService) (user pass salt msg : string) :
  Register u user pass salt = ((msg, None), u1) ->
  users u !! user = None
  /\ msg = "REGISTER SUCCESSFUL"
  /\ exists hashedPass : string,
       hashValue salt pass = (hashedPass, None)
       /\ u1 = {| users := <[user := {| Username := user; HashedPassword := hashedPass |}]> (users u);
                  sessions := sessions u |}.
Proof.
  unfold Register. destruct (users u !! user) as [uf|]; [discriminate|].
  destruct (hashValue salt pass) as [hashedPass [err|]]; [discriminate|].
  intros [= <- <-]. eauto.
Qed.

(** C4. After a successful [Register u user p1], a second [Register] for the
    same user with any password fails with "user already registered", and
    the record stored for the user (the hash of [p1]) is the same before and
    after that second call. *)
Theorem Register_twice (u u1 : userService) (user p1 p2 salt1 salt2 msg : string) :
  Register u user p1 salt1 = ((msg, None), u1) ->
  exists hashedPass : string,
    hashValue salt1 p1 = (hashedPass, None)
    /\ users u1 !! user = Some {| Username := user; HashedPassword := hashedPass |}
    /\ fst (Register u1 user p2 salt2) = ("", Some (Errorf "user already registered"))
    /\ users (snd (Register u1 user p2 salt2)) !! user
       = Some {| Username := user; HashedPassword := hashedPass |}
    /\ snd (Register u1 user p2 salt2) = u1.
Proof.
  intros Hr. apply Register_success in Hr as (_ & _ & hashedPass & Hh & ->).
  exists hashedPass. rewrite Register_registered.
  - simpl. now rewrite lookup_insert_eq.
  - simpl. rewrite lookup_insert_eq. eauto.
Qed.

(** C5, as the code has it. [Register] looks the user up first: a registered
    user gets "user already registered" whatever the hasher would answer, and
    the password is hashed (and the record inserted) only for a user that is
    not registered, where it agrees with hashing first and creating second. *)
Theorem Register_checks_before_hashing (u : userService) (user pass salt : string) :
  Register u user pass salt =
    match users u !! user with
    | Some _ => (("", Some (Errorf "user already registered")), u)
    | None => Register_hash_then_create u user pass salt
    end.
Proof.
  unfold Register, Register_hash_then_create, UserStore_Create.
  destruct (users u !! user) as [uf|]; [done|].
  now destruct (hashValue salt pass) as [hashedPass [err|]].
Qed.

End Registration.

(** ** Login and logout *)

Section Sessions.

Context `{env : Collaborators}.

Lemma Login_users (u : userService) (user pass uuid : string) :
  users (snd (Login u user pass uuid)) = users u.
Proof.
  unfold Login. destruct (users u !! user) as [uf|]; [|done].
  destruct (checkPasswordHash pass (HashedPassword uf)); [done|].
  simpl. now destruct (CreateToken uuid) as [token [err|]].
Qed.

Lemma Logout_users (u : userService) (token : string) :
  users (snd (Logout u token)) = users u.
Proof.
  unfold Logout. destruct (ParseToken token) as [sessionID [err|]]; [done|].
  now destruct (sessions u !! sessionID).
Qed.

Lemma Register_users_other (u : userService) (user pass salt other : string) :
  is_Some (users u !! other) ->
  users (snd (Register u user pass salt)) !! other = users u !! other.
Proof.
  intros Ho. unfold Register. destruct (users u !! user) as [uf|] eqn:Hu; [done|].
  destruct (hashValue salt pass) as [hashedPass [err|]]; [done|]. simpl.
  apply lookup_insert_ne. intros ->. rewrite Hu in Ho. now destruct Ho.
Qed.

Lemma run_keeps_user (u : userService) (c : call) (user : string) (uf : UserFields) :
  users u !! user = Some uf -> users (run u c) !! user = Some uf.
Proof.
  intros Hu. destruct c; simpl; try done.
  - rewrite Register_users_other; eauto.
  - now rewrite Login_users.
  - now rewrite Logout_users.
Qed.



Lemma Login_unknown_user (u : userService) (user pass uuid : string) :
  users u !! user = None ->
  Login u user pass uuid = (("", Some (Errorf "user not registered")), u).
Proof. intros Hu. unfold Login. now rewrite Hu. Qed.

(** C7. For a registered user and a password that [checkPasswordHash]
    refuses against the stored hash, [Login] returns the empty token and the
    wrapped comparison error, and the service is as it was: the sessions map
    has the same contents and the same size. *)
Theorem Login_wrong_password
  (u : userService) (user wrongPassword uuid : string) (uf : UserFields) (err : error) :
  users u !! user = Some uf ->
  checkPasswordHash wrongPassword (HashedPassword uf) = Some err ->
  fst (Login u user wrongPassword uuid)
    = ("", Some (Errorf_w "error while checking passwords: " err))
  /\ sessions (snd (Login u user wrongPassword uuid)) = sessions u
  /\ size (sessions (snd (Login u user wrongPassword uuid))) = size (sessions u)
  /\ snd (Login u user wrongPassword uuid) = u.
Proof.
  intros Hu Hc. unfold Login. now rewrite Hu, Hc.
Qed.

Lemma Logout_success (u u1 : userService) (token : string) :
  Logout u token = (None, u1) ->
  exists sessionID : string,
    ParseToken token = (sessionID, None)
    /\ is_Some (sessions u !! sessionID)
    /\ u1 = {| users := users u; sessions := delete sessionID (sessions u) |}.
Proof.
  unfold Logout. destruct (ParseToken token) as [sessionID [err|]]; [discriminate|].
  destruct (sessions u !! sessionID) eqn:Hs; [|discriminate].
  intros [= <-]. eauto.
Qed.

(** C6. With a codec that decodes no blank token: after [Logout token]
    succeeds, [SendMainTemplateData token] returns the anonymous context with
    the error "session not registered", and a second [Logout token] fails
    with "session not registered during logout" and changes nothing. *)
Theorem Logout_then_session_not_found (u u1 : userService) (token : string) :
  codec_rejects_blank ->
  Logout u token = (None, u1) ->
  SendMainTemplateData u1 token = (anonymous, Some (Errorf "session not registered"))
  /\ Logout u1 token = (Some (Errorf "session not registered during logout"), u1).
Proof.
  intros Hcodec Hl. apply Logout_success in Hl as (sessionID & Hp & _ & ->).
  split.
  - rewrite SendMainTemplateData_of_not_blank.
    + rewrite Hp. simpl. now rewrite lookup_delete_eq.
    + intros Hb. apply Hcodec in Hb. now rewrite Hp in Hb.
  - unfold Logout. rewrite Hp. simpl. now rewrite lookup_delete_eq.
Qed.


End Sessions.

Section TokenFailure.

Context `{env : Collaborators}.

(** The two failure paths of [Login] that return before the session is
    stored leave the service as it was. *)
Lemma Login_early_failure (u : userService) (user pass uuid : string) :
  users u !! user = None
  \/ (exists (uf : UserFields) (err : error),
        users u !! user = Some uf
        /\ checkPasswordHash pass (HashedPassword uf) = Some err) ->
  snd (fst (Login u user pass uuid)) <> None /\ snd (Login u user pass uuid) = u.
Proof.
  unfold Login. intros [Hu|(uf & err & Hu & Hc)].
  - now rewrite Hu.
  - now rewrite Hu, Hc.
Qed.

(** The third one returns after it: the session is in the map although no
    token was handed out. *)
Lemma Login_stores_session_before_token
  (u : userService) (user pass uuid token : string) (uf : UserFields) (err : error) :
  users u !! user = Some uf ->
  checkPasswordHash pass (HashedPassword uf) = None ->
  CreateToken uuid = (token, Some err) ->
  Login u user pass uuid =
    (("", Some (Errorf_w "error while creating token: " err)),
     {| users := users u; sessions := <[uuid := user]> (sessions u) |}).
Proof.
  intros Hu Hc Ht. unfold Login. now rewrite Hu, Hc, Ht.
Qed.

End TokenFailure.

(** ** Worked examples *)

Example TrimSpace_ascii : TrimSpace (String "009" "  a b  ") = "a b".
Proof. reflexivity. Qed.

(** U+00A0 before and U+2003 after the text are removed as well; a stray
    continuation byte is not white space. *)
Example TrimSpace_unicode :
  TrimSpace (String (ascii_of_N 194) (String (ascii_of_N 160)
              ("x" +:+ String (ascii_of_N 226) (String (ascii_of_N 128)
                                 (String (ascii_of_N 131) " "))))) = "x"
  /\ TrimSpace (String (ascii_of_N 128) " ") = String (ascii_of_N 128) "".
Proof. split; reflexivity. Qed.

(** The scenario of the specification: register, log in, render, log out,
    render again. *)
Example alice_scenario :
  let T := "tok." +:+ uuid1 in
  fst (Register (env := stubs) NewUserService "alice" "s3cret" "salt")
    = ("REGISTER SUCCESSFUL", None)
  /\ fst (Login (env := stubs) (alice_registered stubs) "alice" "s3cret" uuid1) = (T, None)
  /\ SendMainTemplateData (env := stubs) (alice_logged_in stubs) T
     = ({| Metadata := {| TemplateMetadata.Name := "main.gohtml" |};
           Variables :=
             {| TemplateVariables.Name := "";
                TemplateVariables.LoginMessage := "";
                TemplateVariables.ErrorMessage := None;
                TemplateVariables.Session := T;
                TemplateVariables.User := "alice" |} |}, None)
  /\ fst (Logout (env := stubs) (alice_logged_in stubs) T) = None
  /\ SendMainTemplateData (env := stubs)
       (snd (Logout (env := stubs) (alice_logged_in stubs) T)) T
     = (anonymous, Some (Errorf "session not registered"))
  /\ HealthCheck NewUserService = "ok".
Proof. cbv zeta. repeat split; vm_compute; reflexivity. Qed.

(** C1. [Login] stores the session before it calls [CreateToken]: when the
    token cannot be created, [Login] returns the error "error while creating
    token: ..." and the sessions map, empty before the call, holds the new
    session for alice. *)
Theorem Login_token_failure_keeps_session :
  let u0 := alice_registered stubs_no_signer in
  let r := Login (env := stubs_no_signer) u0 "alice" "s3cret" uuid1 in
  fst r = ("", Some (Errorf_w "error while creating token: "
                       (errorString "signing key is not available")))
  /\ sessions u0 = ∅
  /\ sessions (snd r) !! uuid1 = Some "alice"
  /\ sessions (snd r) <> sessions u0.
Proof.
  cbv zeta.
  assert (sessions (alice_registered stubs_no_signer) = ∅) as Hs by reflexivity.
  split; [vm_compute; reflexivity|]. split; [exact Hs|].
  assert (sessions (snd (Login (env := stubs_no_signer)
            (alice_registered stubs_no_signer) "alice" "s3cret" uuid1)) !! uuid1
          = Some "alice") as Hl by (vm_compute; reflexivity).
  split; [exact Hl|].
  intros Heq. rewrite Heq, Hs in Hl. rewrite lookup_empty in Hl. discriminate.
Qed.

(** Hashing does not come first: for alice, who is registered, and a
    password the hasher refuses, [Register] answers "user already registered"
    where hashing first would answer with the hashing error. *)
Lemma Register_does_not_hash_first :
  let u0 := alice_registered stubs in
  is_Some (users u0 !! "alice")
  /\ snd (hashValue (env := stubs) "salt" long_password)
     = Some (errorString "bcrypt: password length exceeds 72 bytes")
  /\ fst (Register (env := stubs) u0 "alice" long_password "salt")
     = ("", Some (Errorf "user already registered"))
  /\ fst (Register_hash_then_create (env := stubs) u0 "alice" long_password "salt")
     = ("", Some (Errorf_w "error while hashing pass: "
                    (errorString "bcrypt: password length exceeds 72 bytes")))
  /\ Register (env := stubs) u0 "alice" long_password "salt"
     <> Register_hash_then_create (env := stubs) u0 "alice" long_password "salt".
Proof.
  cbv zeta.
  assert (fst (Register (env := stubs) (alice_registered stubs) "alice" long_password "salt")
          = ("", Some (Errorf "user already registered"))) as H1
    by (vm_compute; reflexivity).
  assert (fst (Register_hash_then_create (env := stubs) (alice_registered stubs)
                 "alice" long_password "salt")
          = ("", Some (Errorf_w "error while hashing pass: "
                         (errorString "bcrypt: password length exceeds 72 bytes")))) as H2
    by (vm_compute; reflexivity).
  split; [vm_compute; eauto|]. split; [vm_compute; reflexivity|].
  split; [exact H1|]. split; [exact H2|].
  intros Heq. rewrite Heq, H2 in H1. discriminate.
Qed.

Ltac not_blank :=
  let Hb := fresh "Hb" in
  intros Hb; apply StringsFacts.TrimSpace_empty_iff in Hb;
  vm_compute in Hb; discriminate.

Lemma SendMainTemplateData_blank_token_witness :
  Blank (String "009" "  ")
  /\ exists ctx : TemplateRender,
       SendMainTemplateData (env := stubs) (alice_logged_in stubs) (String "009" "  ")
         = (ctx, None)
       /\ TemplateVariables.Session (Variables ctx) = ""
       /\ TemplateVariables.User (Variables ctx) = ""
       /\ TemplateVariables.ErrorMessage (Variables ctx) = None
       /\ ctx = anonymous.
Proof.
  assert (Blank (String "009" "  ")) as Hb.
  { apply StringsFacts.TrimSpace_empty_iff. vm_compute. reflexivity. }
  split; [exact Hb|].
  exact (SendMainTemplateData_blank_token (alice_logged_in stubs) (String "009" "  ") Hb).
Defined.

Lemma SendMainTemplateData_failure_context_witness :
  ~ Blank "tok.unknown"
  /\ (snd (ParseToken (Collaborators := stubs) "tok.unknown") <> None
      \/ sessions (alice_logged_in stubs)
           !! fst (ParseToken (Collaborators := stubs) "tok.unknown") = None)
  /\ exists e : error,
       SendMainTemplateData (env := stubs) (alice_logged_in stubs) "tok.unknown"
         = (anonymous, Some e)
       /\ Variables anonymous = TemplateVariables.zero
       /\ TemplateMetadata.Name (Metadata anonymous) = MainTemplate
       /\ e = match snd (ParseToken (Collaborators := stubs) "tok.unknown") with
              | Some err => Errorf_w "error while parsing token: " err
              | None => Errorf "session not registered"
              end.
Proof.
  assert (~ Blank "tok.unknown") as Hb by not_blank.
  assert (snd (ParseToken (Collaborators := stubs) "tok.unknown") <> None
          \/ sessions (alice_logged_in stubs)
               !! fst (ParseToken (Collaborators := stubs) "tok.unknown") = None) as Hf.
  { right. vm_compute. reflexivity. }
  split; [exact Hb|]. split; [exact Hf|].
  exact (SendMainTemplateData_failure_context (alice_logged_in stubs) "tok.unknown" Hb Hf).
Defined.

Lemma Register_twice_witness :
  Register (env := stubs) NewUserService "alice" "s3cret" "salt"
    = (("REGISTER SUCCESSFUL", None), alice_registered stubs)
  /\ exists hashedPass : string,
       hashValue (env := stubs) "salt" "s3cret" = (hashedPass, None)
       /\ users (alice_registered stubs) !! "alice"
          = Some {| Username := "alice"; HashedPassword := hashedPass |}
       /\ fst (Register (env := stubs) (alice_registered stubs) "alice" "other" "pepper")
          = ("", Some (Errorf "user already registered"))
       /\ users (snd (Register (env := stubs) (alice_registered stubs) "alice" "other" "pepper"))
            !! "alice"
          = Some {| Username := "alice"; HashedPassword := hashedPass |}
       /\ snd (Register (env := stubs) (alice_registered stubs) "alice" "other" "pepper")
          = alice_registered stubs.
Proof.
  assert (Register (env := stubs) NewUserService "alice" "s3cret" "salt"
          = (("REGISTER SUCCESSFUL", None), alice_registered stubs)) as Hr
    by (vm_compute; reflexivity).
  split; [exact Hr|].
  exact (Register_twice NewUserService (alice_registered stubs)
           "alice" "s3cret" "other" "salt" "pepper" "REGISTER SUCCESSFUL" Hr).
Defined.


Lemma Login_wrong_password_witness :
  users (alice_logged_in stubs) !! "alice"
    = Some {| Username := "alice"; HashedPassword := "$2a$s3cret" |}
  /\ checkPasswordHash (env := stubs) "guess" "$2a$s3cret"
     = Some (errorString "crypto/bcrypt: hashedPassword is not the hash of the given password")
  /\ fst (Login (env := stubs) (alice_logged_in stubs) "alice" "guess" "another-uuid")
     = ("", Some (Errorf_w "error while checking passwords: "
                    (errorString "crypto/bcrypt: hashedPassword is not the hash of the given password")))
  /\ sessions (snd (Login (env := stubs) (alice_logged_in stubs) "alice" "guess" "another-uuid"))
     = sessions (alice_logged_in stubs)
  /\ size (sessions (snd (Login (env := stubs) (alice_logged_in stubs) "alice" "guess" "another-uuid")))
     = size (sessions (alice_logged_in stubs))
  /\ snd (Login (env := stubs) (alice_logged_in stubs) "alice" "guess" "another-uuid")
     = alice_logged_in stubs.
Proof.
  assert (users (alice_logged_in stubs) !! "alice"
          = Some {| Username := "alice"; HashedPassword := "$2a$s3cret" |}) as Hu
    by (vm_compute; reflexivity).
  assert (checkPasswordHash (env := stubs) "guess" "$2a$s3cret"
          = Some (errorString "crypto/bcrypt: hashedPassword is not the hash of the given password"))
    as Hc by (vm_compute; reflexivity).
  split; [exact Hu|]. split; [exact Hc|].
  exact (Login_wrong_password (alice_logged_in stubs) "alice" "guess" "another-uuid" _ _ Hu Hc).
Defined.

Lemma Logout_then_session_not_found_witness :
  codec_rejects_blank (env := stubs)
  /\ Logout (env := stubs) (alice_logged_in stubs) ("tok." +:+ uuid1)
     = (None, alice_registered stubs)
  /\ SendMainTemplateData (env := stubs) (alice_registered stubs) ("tok." +:+ uuid1)
     = (anonymous, Some (Errorf "session not registered"))
  /\ Logout (env := stubs) (alice_registered stubs) ("tok." +:+ uuid1)
     = (Some (Errorf "session not registered during logout"), alice_registered stubs).
Proof.
  assert (Logout (env := stubs) (alice_logged_in stubs) ("tok." +:+ uuid1)
          = (None, alice_registered stubs)) as Hl by (vm_compute; reflexivity).
  split; [exact stubs_rejects_blank|]. split; [exact Hl|].
  exact (Logout_then_session_not_found (alice_logged_in stubs) (alice_registered stubs)
           ("tok." +:+ uuid1) stubs_rejects_blank Hl).
Defined.


(** * Further properties of the methods *)

(** ** Rendering and logout *)

Section RenderingAndLogout.

Context `{env : Collaborators}.

Lemma userService_eta (u : userService) :
  {| users := users u; sessions := sessions u |} = u.
Proof. now destruct u. Qed.

(** X1. For a token that is not blank, [SendMainTemplateData] returns a nil
    error exactly when [ParseToken] decodes the token to a session of the
    sessions map; the context then carries the token as given in [Session]
    and the session's user in [User], with the main template name. *)
Theorem SendMainTemplateData_live_session (u : userService) (token : string) :
  ~ Blank token ->
  (snd (SendMainTemplateData u token) = None <->
     exists sessionID user : string,
       ParseToken token = (sessionID, None) /\ sessions u !! sessionID = Some user)
  /\ (forall sessionID user : string,
        ParseToken token = (sessionID, None) ->
        sessions u !! sessionID = Some user ->
        SendMainTemplateData u token = (authenticated token user, None)).
Proof.
  intros Hb. rewrite SendMainTemplateData_of_not_blank by done. split.
  - destruct (ParseToken token) as [sessionID [err|]]; simpl.
    + split; [discriminate|]. intros (sid & user & [=] & _).
    + destruct (sessions u !! sessionID) as [user|] eqn:Hs; simpl.
      * split; [eauto|done].
      * split; [discriminate|]. intros (sid & user & [= <-] & Hs1). congruence.
  - intros sessionID user -> Hs. now rewrite Hs.
Qed.

(** X2. A [Logout] that returns an error leaves the service as it was, and it
    returns an error exactly when [ParseToken] fails or the decoded session
    is not in the sessions map. *)
Theorem Logout_failure_keeps_service (u : userService) (token : string) :
  (fst (Logout u token) <> None <->
     snd (ParseToken token) <> None \/ sessions u !! fst (ParseToken token) = None)
  /\ (fst (Logout u token) <> None -> snd (Logout u token) = u).
Proof.
  unfold Logout. destruct (ParseToken token) as [sessionID [err|]]; simpl.
  - split; [|done]. split; [now left|done].
  - destruct (sessions u !! sessionID) as [user|]; simpl.
    + split; [|done]. split; [done|]. intros [H|H]; congruence.
    + split; [|done]. split; [now right|done].
Qed.

(** X3. A [Logout] that succeeds removes the session the token decodes to and
    nothing else: that session is gone, every other session is as before,
    the sessions map has one entry less and the users map is untouched. *)
Theorem Logout_removes_one_session (u u1 : userService) (token : string) :
  Logout u token = (None, u1) ->
  exists sessionID user : string,
    ParseToken token = (sessionID, None)
    /\ sessions u !! sessionID = Some user
    /\ sessions u1 !! sessionID = None
    /\ (forall other : string,
          other <> sessionID -> sessions u1 !! other = sessions u !! other)
    /\ size (sessions u) = S (size (sessions u1))
    /\ users u1 = users u.
Proof.
  intros Hl. apply Logout_success in Hl as (sessionID & Hp & [user Hs] & ->).
  exists sessionID, user. simpl. split; [done|]. split; [done|].
  split; [apply lookup_delete_eq|].
  split; [intros other Hne; now apply lookup_delete_ne|].
  split; [|done].
  rewrite map_size_delete, Hs. simpl.
  assert (size (sessions u) <> 0) as Hnz.
  { intros Hz. apply map_size_empty_inv in Hz. rewrite Hz, lookup_empty in Hs.
    discriminate. }
  lia.
Qed.

(** X4. For a token that is not blank, [SendMainTemplateData] succeeds
    exactly when [Logout] of the same token would succeed: both decode the
    token and look the session up in the same map. *)
Theorem SendMainTemplateData_agrees_with_Logout (u : userService) (token : string) :
  ~ Blank token ->
  (snd (SendMainTemplateData u token) = None <-> fst (Logout u token) = None).
Proof.
  intros Hb. rewrite SendMainTemplateData_of_not_blank by done. unfold Logout.
  destruct (ParseToken token) as [sessionID [err|]]; simpl; [done|].
  now destruct (sessions u !! sessionID).
Qed.

End RenderingAndLogout.

(** ** Registration and login *)

Section RegistrationAndLogin.

Context `{env : Collaborators}.

(** X5. [Register] succeeds exactly when the user is not in the users map and
    the hasher returns no error: nothing else (an empty name, an empty
    password) makes it fail. When it fails it returns the empty message and
    leaves the service as it was. *)
Theorem Register_succeeds_iff (u : userService) (user pass salt : string) :
  (snd (fst (Register u user pass salt)) = None <->
     users u !! user = None /\ snd (hashValue salt pass) = None)
  /\ (snd (fst (Register u user pass salt)) <> None ->
      fst (fst (Register u user pass salt)) = ""
      /\ snd (Register u user pass salt) = u).
Proof.
  unfold Register. destruct (users u !! user) as [uf|]; simpl.
  - split; [|done]. split; [done|]. now intros [? _].
  - destruct (hashValue salt pass) as [hashedPass [err|]]; simpl.
    + split; [|done]. split; [done|]. now intros [_ ?].
    + split; [done|]. intros Hn. now destruct Hn.
Qed.

(** X6. A [Register] that succeeds adds one record and touches nothing else:
    the users map has one entry more, the records of all other users are as
    before, and the sessions map is unchanged. *)
Theorem Register_adds_one_user (u u1 : userService) (user pass salt msg : string) :
  Register u user pass salt = ((msg, None), u1) ->
  size (users u1) = S (size (users u))
  /\ (forall other : string, other <> user -> users u1 !! other = users u !! other)
  /\ sessions u1 = sessions u.
Proof.
  intros Hr. apply Register_success in Hr as (Hn & _ & hashedPass & _ & ->). simpl.
  split; [now apply map_size_insert_None|].
  split; [|done]. intros other Hne. now apply lookup_insert_ne.
Qed.

(** X7. [Login] succeeds exactly when the user is in the users map, the
    password passes [checkPasswordHash] against the stored hash and
    [CreateToken] returns no error. *)
Theorem Login_succeeds_iff (u : userService) (user pass uuid : string) :
  snd (fst (Login u user pass uuid)) = None <->
    exists uf : UserFields,
      users u !! user = Some uf
      /\ checkPasswordHash pass (HashedPassword uf) = None
      /\ snd (CreateToken uuid) = None.
Proof.
  unfold Login. destruct (users u !! user) as [uf|]; simpl.
  - destruct (checkPasswordHash pass (HashedPassword uf)) as [err|] eqn:Hc; simpl.
    + split; [done|]. intros (uf1 & [= <-] & Hc1 & _). congruence.
    + destruct (CreateToken uuid) as [token [err|]]; simpl.
      * split; [done|]. now intros (uf1 & _ & _ & ?).
      * split; [eauto|done].
  - split; [done|]. now intros (uf1 & ? & _).
Qed.

Lemma Login_success (u u1 : userService) (user pass uuid token : string) :
  Login u user pass uuid = ((token, None), u1) ->
  CreateToken uuid = (token, None)
  /\ u1 = {| users := users u; sessions := <[uuid := user]> (sessions u) |}.
Proof.
  unfold Login. destruct (users u !! user) as [uf|]; [|discriminate].
  destruct (checkPasswordHash pass (HashedPassword uf)); [discriminate|]. simpl.
  destruct (CreateToken uuid) as [token1 [err|]]; [discriminate|].
  now intros [= <- <-].
Qed.

(** X8. A [Login] that succeeds returns the token [CreateToken] made for the
    new session identifier, binds that identifier to the user, keeps every
    other session and the users map, and, when the identifier was not in
    use, makes the sessions map one entry larger. *)
Theorem Login_adds_one_session (u u1 : userService) (user pass uuid token : string) :
  Login u user pass uuid = ((token, None), u1) ->
  CreateToken uuid = (token, None)
  /\ sessions u1 !! uuid = Some user
  /\ (forall other : string, other <> uuid -> sessions u1 !! other = sessions u !! other)
  /\ users u1 = users u
  /\ (sessions u !! uuid = None -> size (sessions u1) = S (size (sessions u))).
Proof.
  intros Hl. apply Login_success in Hl as [Hc ->]. simpl.
  split; [done|]. split; [apply lookup_insert_eq|].
  split; [intros other Hne; now apply lookup_insert_ne|].
  split; [done|]. apply map_size_insert_None.
Qed.

(** X9. [Login] does not check that the new session identifier is free: after
    a successful [Login], every non-blank token that decodes to that
    identifier renders the user who just logged in, whoever held the
    identifier before. *)
Theorem Login_session_renders_user
  (u u1 : userService) (user pass uuid token presented : string) :
  Login u user pass uuid = ((token, None), u1) ->
  ~ Blank presented ->
  ParseToken presented = (uuid, None) ->
  SendMainTemplateData u1 presented = (authenticated presented user, None).
Proof.
  intros Hl Hb Hp. apply Login_success in Hl as [_ ->].
  rewrite SendMainTemplateData_of_not_blank by done.
  rewrite Hp. simpl. now rewrite lookup_insert_eq.
Qed.

(** X10. With a codec that decodes what it encodes, logging in with a session
    identifier that is not in use and then logging out with the returned
    token gives back the service as it was before the login. *)
Theorem Login_then_Logout (u u1 : userService) (user pass uuid token : string) :
  codec_round_trip ->
  sessions u !! uuid = None ->
  Login u user pass uuid = ((token, None), u1) ->
  Logout u1 token = (None, u).
Proof.
  intros Htrip Hfree Hl. apply Login_success in Hl as [Hc ->].
  unfold Logout. rewrite (Htrip _ _ Hc). simpl. rewrite lookup_insert_eq.
  rewrite delete_insert_id by done. now rewrite userService_eta.
Qed.

End RegistrationAndLogin.

(** ** The life of a session and the invariants of the maps *)

Section Lifecycle.

Context `{env : Collaborators}.

Lemma Register_sessions (u : userService) (user pass salt : string) :
  sessions (snd (Register u user pass salt)) = sessions u.
Proof.
  unfold Register. destruct (users u !! user); [done|].
  now destruct (hashValue salt pass) as [hashedPass [err|]].
Qed.

(** What [Login] leaves in the sessions map, on every path. *)
Lemma Login_sessions (u : userService) (user pass uuid : string) :
  sessions (snd (Login u user pass uuid)) =
    match users u !! user with
    | None => sessions u
    | Some uf =>
        match checkPasswordHash pass (HashedPassword uf) with
        | Some _ => sessions u
        | None => <[uuid := user]> (sessions u)
        end
    end.
Proof.
  unfold Login. destruct (users u !! user) as [uf|]; [|done].
  destruct (checkPasswordHash pass (HashedPassword uf)); [done|]. simpl.
  now destruct (CreateToken uuid) as [token [err|]].
Qed.

(** What [Logout] leaves in the sessions map, on every path. *)
Lemma Logout_sessions (u : userService) (token : string) :
  sessions (snd (Logout u token)) =
    match ParseToken token with
    | (_, Some _) => sessions u
    | (sessionID, None) => delete sessionID (sessions u)
    end.
Proof.
  unfold Logout. destruct (ParseToken token) as [sessionID [err|]]; [done|].
  destruct (sessions u !! sessionID) eqn:Hs; simpl; [done|].
  now rewrite delete_id.
Qed.

Lemma SendMainTemplateData_same_session (u u1 : userService) (token : string) :
  sessions u1 !! fst (ParseToken token) = sessions u !! fst (ParseToken token) ->
  SendMainTemplateData u1 token = SendMainTemplateData u token.
Proof.
  intros Hs. unfold SendMainTemplateData. case_decide; [done|].
  destruct (ParseToken token) as [sessionID [err|]]; [done|].
  simpl in Hs. now rewrite Hs.
Qed.

(** X11. What [SendMainTemplateData] returns for a token changes only through
    a [Login] that draws the session identifier the token decodes to or a
    [Logout] of a token decoding to that identifier: every other call,
    [Register] and the logins and logouts of other sessions included, leaves
    it as it is. *)
Theorem other_calls_keep_the_context (u : userService) (c : call) (token : string) :
  match c with
  | CallLogin _ _ uuid => uuid <> fst (ParseToken token)
  | CallLogout other => fst (ParseToken other) <> fst (ParseToken token)
  | _ => True
  end ->
  SendMainTemplateData (run u c) token = SendMainTemplateData u token.
Proof.
  intros Hc. apply SendMainTemplateData_same_session.
  destruct c as [|t|user pass salt|user pass uuid|t]; simpl; try done.
  - now rewrite Register_sessions.
  - rewrite Login_sessions. destruct (users u !! user) as [uf|]; [|done].
    destruct (checkPasswordHash pass (HashedPassword uf)); [done|].
    now apply lookup_insert_ne.
  - rewrite Logout_sessions. destruct (ParseToken t) as [sessionID [err|]]; [done|].
    now apply lookup_delete_ne.
Qed.

(** X12. A session identifier enters the sessions map only through [Login]:
    if a call makes an absent identifier present, the call is a [Login] that
    drew this identifier, for the user the session now belongs to, who is
    registered and whose password passed the check. *)
Theorem sessions_created_by_Login (u : userService) (c : call) (sessionID user : string) :
  sessions u !! sessionID = None ->
  sessions (run u c) !! sessionID = Some user ->
  exists (pass : string) (uf : UserFields),
    c = CallLogin user pass sessionID
    /\ users u !! user = Some uf
    /\ checkPasswordHash pass (HashedPassword uf) = None.
Proof.
  intros Hn Hs. destruct c as [|t|user1 pass salt|user1 pass uuid|t]; simpl in Hs.
  - congruence.
  - congruence.
  - rewrite Register_sessions in Hs. congruence.
  - rewrite Login_sessions in Hs. destruct (users u !! user1) as [uf|] eqn:Hu; [|congruence].
    destruct (checkPasswordHash pass (HashedPassword uf)) eqn:Hc; [congruence|].
    destruct (decide (uuid = sessionID)) as [->|Hne].
    + rewrite lookup_insert_eq in Hs. injection Hs as ->. eauto.
    + rewrite lookup_insert_ne in Hs by done. congruence.
  - rewrite Logout_sessions in Hs. destruct (ParseToken t) as [sid [err|]]; [congruence|].
    destruct (decide (sid = sessionID)) as [->|Hne].
    + rewrite lookup_delete_eq in Hs. discriminate.
    + rewrite lookup_delete_ne in Hs by done. congruence.
Qed.

(** X13. A session stops belonging to its user only through a [Logout] of a
    token that decodes to its identifier, after which it is absent, or
    through a [Login] of another user that draws the same identifier, after
    which it belongs to that user. *)
Theorem sessions_ended_by_Logout (u : userService) (c : call) (sessionID user : string) :
  sessions u !! sessionID = Some user ->
  sessions (run u c) !! sessionID <> Some user ->
  (exists token : string,
     c = CallLogout token
     /\ ParseToken token = (sessionID, None)
     /\ sessions (run u c) !! sessionID = None)
  \/ (exists other pass : string,
        c = CallLogin other pass sessionID
        /\ other <> user
        /\ sessions (run u c) !! sessionID = Some other).
Proof.
  intros Hs Hc. destruct c as [|t|user1 pass salt|user1 pass uuid|t]; simpl in *.
  - congruence.
  - congruence.
  - rewrite Register_sessions in Hc. congruence.
  - right. rewrite Login_sessions in *.
    destruct (users u !! user1) as [uf|]; [|congruence].
    destruct (checkPasswordHash pass (HashedPassword uf)); [congruence|].
    destruct (decide (uuid = sessionID)) as [->|Hne].
    + rewrite lookup_insert_eq in *. exists user1, pass.
      split; [done|]. split; [congruence|done].
    + rewrite lookup_insert_ne in Hc by done. congruence.
  - left. rewrite Logout_sessions in *.
    destruct (ParseToken t) as [sid [err|]] eqn:Hp; [congruence|].
    destruct (decide (sid = sessionID)) as [->|Hne].
    + rewrite lookup_delete_eq. eauto.
    + rewrite lookup_delete_ne in Hc by done. congruence.
Qed.

Lemma run_all_invariant (P : userService -> Prop) :
  (forall (u : userService) (c : call), P u -> P (run u c)) ->
  forall (cs : list call) (u : userService), P u -> P (run_all u cs).
Proof.
  intros Hstep cs. unfold run_all.
  induction cs as [|c cs IH]; intros u Hu; simpl; [done|].
  apply IH, Hstep, Hu.
Qed.

Lemma run_sessions_belong_to_users (u : userService) (c : call) :
  sessions_belong_to_users u -> sessions_belong_to_users (run u c).
Proof.
  intros Hinv sessionID user.
  destruct c as [|t|user1 pass salt|user1 pass uuid|t]; simpl.
  - apply Hinv.
  - apply Hinv.
  - rewrite Register_sessions. intros Hs. apply Hinv in Hs as [uf Hu].
    exists uf. now apply (run_keeps_user u (CallRegister user1 pass salt)).
  - rewrite Login_sessions, Login_users.
    destruct (users u !! user1) as [uf|] eqn:Hu; [|apply Hinv].
    destruct (checkPasswordHash pass (HashedPassword uf)); [apply Hinv|].
    destruct (decide (uuid = sessionID)) as [->|Hne].
    + rewrite lookup_insert_eq. intros [= <-]. eauto.
    + rewrite lookup_insert_ne by done. apply Hinv.
  - rewrite Logout_sessions, Logout_users.
    destruct (ParseToken t) as [sid [err|]]; [apply Hinv|].
    destruct (decide (sid = sessionID)) as [->|Hne].
    + now rewrite lookup_delete_eq.
    + rewrite lookup_delete_ne by done. apply Hinv.
Qed.

(** X14. In every state the service reaches from [NewUserService], whatever
    the calls and whatever the collaborators answer, each session of the
    sessions map belongs to a user of the users map. *)
Theorem reachable_sessions_belong_to_users (cs : list call) :
  sessions_belong_to_users (run_all NewUserService cs).
Proof.
  apply run_all_invariant.
  - intros u c. apply run_sessions_belong_to_users.
  - intros sessionID user Hs. simpl in Hs. now rewrite lookup_empty in Hs.
Qed.

Lemma run_users_well_formed (u : userService) (c : call) :
  users_keyed_by_name u /\ users_hold_hashes u ->
  users_keyed_by_name (run u c) /\ users_hold_hashes (run u c).
Proof.
  intros Hinv.
  destruct c as [|t|user pass salt|user pass uuid|t]; simpl; try done.
  - unfold Register. destruct (users u !! user); [done|].
    unfold hashValue.
    destruct (GenerateFromPassword salt pass DefaultCost) as [hash [err|]] eqn:Hg;
      [done|].
    destruct Hinv as [Hk Hh]. split; intros key uf; simpl;
      (destruct (decide (user = key)) as [->|Hne];
       [rewrite lookup_insert_eq; intros [= <-]
       |rewrite lookup_insert_ne by done]); simpl; eauto.
  - unfold users_keyed_by_name, users_hold_hashes. now rewrite Login_users.
  - unfold users_keyed_by_name, users_hold_hashes. now rewrite Logout_users.
Qed.

(** X15. In every state the service reaches from [NewUserService], each
    record of the users map is stored under its own [Username] and holds a
    [HashedPassword] that [bcrypt.GenerateFromPassword] returned with a nil
    error at the default cost. *)
Theorem reachable_users_well_formed (cs : list call) :
  users_keyed_by_name (run_all NewUserService cs)
  /\ users_hold_hashes (run_all NewUserService cs).
Proof.
  apply (run_all_invariant (fun u => users_keyed_by_name u /\ users_hold_hashes u)).
  - intros u c. apply run_users_well_formed.
  - split; intros key uf Hu; simpl in Hu; now rewrite lookup_empty in Hu.
Qed.

End Lifecycle.

(** ** The fresh service, and registration followed by login *)

Section FreshService.

Context `{env : Collaborators}.

(** X16. On the service [NewUserService] returns, before any registration:
    every [Login] fails with "user not registered", every [Logout] fails,
    every [SendMainTemplateData] on a non-blank token returns an error, and
    none of them changes the service. *)
Theorem NewUserService_has_no_sessions (user pass uuid token : string) :
  Login NewUserService user pass uuid
    = (("", Some (Errorf "user not registered")), NewUserService)
  /\ fst (Logout NewUserService token) <> None
  /\ snd (Logout NewUserService token) = NewUserService
  /\ (~ Blank token -> snd (SendMainTemplateData NewUserService token) <> None).
Proof.
  split; [|split; [|split]].
  - unfold Login. simpl. now rewrite lookup_empty.
  - unfold Logout. destruct (ParseToken token) as [sessionID [err|]]; [done|].
    simpl. now rewrite lookup_empty.
  - unfold Logout. destruct (ParseToken token) as [sessionID [err|]]; [done|].
    simpl. now rewrite lookup_empty.
  - intros Hb. rewrite SendMainTemplateData_of_not_blank by done.
    destruct (ParseToken token) as [sessionID [err|]]; [done|].
    simpl. now rewrite lookup_empty.
Qed.

(** X17. After a successful [Register], a [Login] of that user with any
    password succeeds exactly when [bcrypt.CompareHashAndPassword] accepts
    the password against the hash [bcrypt.GenerateFromPassword] returned at
    registration and [CreateToken] returns no error: the password is checked
    against the stored hash and against nothing else. *)
Theorem Login_checks_the_registered_hash
  (u u1 : userService) (user p1 p2 salt uuid msg hash : string) :
  Register u user p1 salt = ((msg, None), u1) ->
  GenerateFromPassword salt p1 DefaultCost = (hash, None) ->
  (snd (fst (Login u1 user p2 uuid)) = None <->
     CompareHashAndPassword hash p2 = None /\ snd (CreateToken uuid) = None).
Proof.
  intros Hr Hg. apply Register_success in Hr as (_ & _ & hashedPass & Hh & ->).
  unfold hashValue in Hh. rewrite Hg in Hh. injection Hh as <-.
  unfold Login, checkPasswordHash. simpl. rewrite lookup_insert_eq. simpl.
  destruct (CompareHashAndPassword hash p2) as [err|]; simpl.
  - split; [done|]. now intros [? _].
  - destruct (CreateToken uuid) as [token [err|]]; simpl; [|done].
    split; [done|]. now intros [_ ?].
Qed.

End FreshService.

(** ** The further properties on the worked examples *)

Lemma SendMainTemplateData_live_session_witness :
  ~ Blank ("tok." +:+ uuid1)
  /\ SendMainTemplateData (env := stubs) (alice_logged_in stubs) ("tok." +:+ uuid1)
     = (authenticated ("tok." +:+ uuid1) "alice", None).
Proof.
  assert (~ Blank ("tok." +:+ uuid1)) as Hb by not_blank.
  split; [exact Hb|].
  apply (proj2 (SendMainTemplateData_live_session (env := stubs)
                  (alice_logged_in stubs) ("tok." +:+ uuid1) Hb) uuid1 "alice");
    vm_compute; reflexivity.
Defined.

Lemma Logout_removes_one_session_witness :
  Logout (env := stubs) (alice_logged_in_twice stubs) ("tok." +:+ uuid2)
    = (None, alice_logged_in stubs)
  /\ exists sessionID user : string,
       ParseToken (Collaborators := stubs) ("tok." +:+ uuid2) = (sessionID, None)
       /\ sessions (alice_logged_in_twice stubs) !! sessionID = Some user
       /\ sessions (alice_logged_in stubs) !! sessionID = None
       /\ (forall other : string,
             other <> sessionID ->
             sessions (alice_logged_in stubs) !! other
               = sessions (alice_logged_in_twice stubs) !! other)
       /\ size (sessions (alice_logged_in_twice stubs))
          = S (size (sessions (alice_logged_in stubs)))
       /\ users (alice_logged_in stubs) = users (alice_logged_in_twice stubs).
Proof.
  assert (Logout (env := stubs) (alice_logged_in_twice stubs) ("tok." +:+ uuid2)
          = (None, alice_logged_in stubs)) as Hl by (vm_compute; reflexivity).
  split; [exact Hl|].
  exact (Logout_removes_one_session (env := stubs) _ _ _ Hl).
Defined.

Lemma SendMainTemplateData_agrees_with_Logout_witness :
  ~ Blank "tok.unknown"
  /\ (snd (SendMainTemplateData (env := stubs) (alice_logged_in stubs) "tok.unknown") = None
      <-> fst (Logout (env := stubs) (alice_logged_in stubs) "tok.unknown") = None).
Proof.
  assert (~ Blank "tok.unknown") as Hb by not_blank.
  split; [exact Hb|].
  exact (SendMainTemplateData_agrees_with_Logout (env := stubs)
           (alice_logged_in stubs) "tok.unknown" Hb).
Defined.

Lemma Register_adds_one_user_witness :
  Register (env := stubs) (alice_logged_in stubs) "bob" "hunter2" "salt"
    = (("REGISTER SUCCESSFUL", None),
       snd (Register (env := stubs) (alice_logged_in stubs) "bob" "hunter2" "salt"))
  /\ size (users (snd (Register (env := stubs) (alice_logged_in stubs) "bob" "hunter2" "salt")))
     = S (size (users (alice_logged_in stubs)))
  /\ (forall other : string,
        other <> "bob" ->
        users (snd (Register (env := stubs) (alice_logged_in stubs) "bob" "hunter2" "salt"))
          !! other
        = users (alice_logged_in stubs) !! other)
  /\ sessions (snd (Register (env := stubs) (alice_logged_in stubs) "bob" "hunter2" "salt"))
     = sessions (alice_logged_in stubs).
Proof.
  assert (Register (env := stubs) (alice_logged_in stubs) "bob" "hunter2" "salt"
          = (("REGISTER SUCCESSFUL", None),
             snd (Register (env := stubs) (alice_logged_in stubs) "bob" "hunter2" "salt")))
    as Hr by (vm_compute; reflexivity).
  split; [exact Hr|].
  exact (Register_adds_one_user (env := stubs) _ _ _ _ _ _ Hr).
Defined.

Lemma Login_adds_one_session_witness :
  Login (env := stubs) (alice_logged_in stubs) "alice" "s3cret" uuid2
    = (("tok." +:+ uuid2, None), alice_logged_in_twice stubs)
  /\ CreateToken (Collaborators := stubs) uuid2 = ("tok." +:+ uuid2, None)
  /\ sessions (alice_logged_in_twice stubs) !! uuid2 = Some "alice"
  /\ (forall other : string,
        other <> uuid2 ->
        sessions (alice_logged_in_twice stubs) !! other
          = sessions (alice_logged_in stubs) !! other)
  /\ users (alice_logged_in_twice stubs) = users (alice_logged_in stubs)
  /\ (sessions (alice_logged_in stubs) !! uuid2 = None ->
      size (sessions (alice_logged_in_twice stubs))
        = S (size (sessions (alice_logged_in stubs)))).
Proof.
  assert (Login (env := stubs) (alice_logged_in stubs) "alice" "s3cret" uuid2
          = (("tok." +:+ uuid2, None), alice_logged_in_twice stubs)) as Hl
    by (vm_compute; reflexivity).
  split; [exact Hl|].
  exact (Login_adds_one_session (env := stubs) _ _ _ _ _ _ Hl).
Defined.

Lemma Login_session_renders_user_witness :
  Login (env := stubs) (alice_registered stubs) "alice" "s3cret" uuid1
    = (("tok." +:+ uuid1, None), alice_logged_in stubs)
  /\ ~ Blank ("tok." +:+ uuid1)
  /\ ParseToken (Collaborators := stubs) ("tok." +:+ uuid1) = (uuid1, None)
  /\ SendMainTemplateData (env := stubs) (alice_logged_in stubs) ("tok." +:+ uuid1)
     = (authenticated ("tok." +:+ uuid1) "alice", None).
Proof.
  assert (Login (env := stubs) (alice_registered stubs) "alice" "s3cret" uuid1
          = (("tok." +:+ uuid1, None), alice_logged_in stubs)) as Hl
    by (vm_compute; reflexivity).
  assert (~ Blank ("tok." +:+ uuid1)) as Hb by not_blank.
  assert (ParseToken (Collaborators := stubs) ("tok." +:+ uuid1) = (uuid1, None)) as Hp
    by (vm_compute; reflexivity).
  split; [exact Hl|]. split; [exact Hb|]. split; [exact Hp|].
  exact (Login_session_renders_user (env := stubs) _ _ _ _ _ _ _ Hl Hb Hp).
Defined.

Lemma Login_then_Logout_witness :
  codec_round_trip (env := stubs)
  /\ sessions (alice_registered stubs) !! uuid1 = None
  /\ Login (env := stubs) (alice_registered stubs) "alice" "s3cret" uuid1
     = (("tok." +:+ uuid1, None), alice_logged_in stubs)
  /\ Logout (env := stubs) (alice_logged_in stubs) ("tok." +:+ uuid1)
     = (None, alice_registered stubs).
Proof.
  assert (sessions (alice_registered stubs) !! uuid1 = None) as Hf
    by (vm_compute; reflexivity).
  assert (Login (env := stubs) (alice_registered stubs) "alice" "s3cret" uuid1
          = (("tok." +:+ uuid1, None), alice_logged_in stubs)) as Hl
    by (vm_compute; reflexivity).
  split; [exact stubs_round_trip|]. split; [exact Hf|]. split; [exact Hl|].
  exact (Login_then_Logout (env := stubs) _ _ _ _ _ _ stubs_round_trip Hf Hl).
Defined.

Lemma other_calls_keep_the_context_witness :
  fst (ParseToken (Collaborators := stubs) ("tok." +:+ uuid2))
    <> fst (ParseToken (Collaborators := stubs) ("tok." +:+ uuid1))
  /\ SendMainTemplateData (env := stubs)
       (run (env := stubs) (alice_logged_in_twice stubs) (CallLogout ("tok." +:+ uuid2)))
       ("tok." +:+ uuid1)
     = SendMainTemplateData (env := stubs) (alice_logged_in_twice stubs) ("tok." +:+ uuid1).
Proof.
  assert (fst (ParseToken (Collaborators := stubs) ("tok." +:+ uuid2))
          <> fst (ParseToken (Collaborators := stubs) ("tok." +:+ uuid1))) as Hne.
  { vm_compute. discriminate. }
  split; [exact Hne|].
  exact (other_calls_keep_the_context (env := stubs) (alice_logged_in_twice stubs)
           (CallLogout ("tok." +:+ uuid2)) ("tok." +:+ uuid1) Hne).
Defined.

Lemma sessions_created_by_Login_witness :
  sessions (alice_registered stubs) !! uuid1 = None
  /\ sessions (run (env := stubs) (alice_registered stubs)
                 (CallLogin "alice" "s3cret" uuid1)) !! uuid1 = Some "alice"
  /\ exists (pass : string) (uf : UserFields),
       CallLogin "alice" "s3cret" uuid1 = CallLogin "alice" pass uuid1
       /\ users (alice_registered stubs) !! "alice" = Some uf
       /\ checkPasswordHash (env := stubs) pass (HashedPassword uf) = None.
Proof.
  assert (sessions (alice_registered stubs) !! uuid1 = None) as Hn
    by (vm_compute; reflexivity).
  assert (sessions (run (env := stubs) (alice_registered stubs)
                      (CallLogin "alice" "s3cret" uuid1)) !! uuid1 = Some "alice") as Hs
    by (vm_compute; reflexivity).
  split; [exact Hn|]. split; [exact Hs|].
  exact (sessions_created_by_Login (env := stubs) _ _ _ _ Hn Hs).
Defined.

Lemma sessions_ended_by_Logout_witness :
  sessions (alice_logged_in stubs) !! uuid1 = Some "alice"
  /\ sessions (run (env := stubs) (alice_logged_in stubs)
                 (CallLogout ("tok." +:+ uuid1))) !! uuid1 <> Some "alice"
  /\ ((exists token : string,
         CallLogout ("tok." +:+ uuid1) = CallLogout token
         /\ ParseToken (Collaborators := stubs) token = (uuid1, None)
         /\ sessions (run (env := stubs) (alice_logged_in stubs)
                        (CallLogout ("tok." +:+ uuid1))) !! uuid1 = None)
      \/ (exists other pass : string,
            CallLogout ("tok." +:+ uuid1) = CallLogin other pass uuid1
            /\ other <> "alice"
            /\ sessions (run (env := stubs) (alice_logged_in stubs)
                           (CallLogout ("tok." +:+ uuid1))) !! uuid1 = Some other)).
Proof.
  assert (sessions (alice_logged_in stubs) !! uuid1 = Some "alice") as Hs
    by (vm_compute; reflexivity).
  assert (sessions (run (env := stubs) (alice_logged_in stubs)
                      (CallLogout ("tok." +:+ uuid1))) !! uuid1 <> Some "alice") as Hc.
  { vm_compute. discriminate. }
  split; [exact Hs|]. split; [exact Hc|].
  exact (sessions_ended_by_Logout (env := stubs) _ _ _ _ Hs Hc).
Defined.

Lemma Login_checks_the_registered_hash_witness :
  Register (env := stubs) NewUserService "alice" "s3cret" "salt"
    = (("REGISTER SUCCESSFUL", None), alice_registered stubs)
  /\ GenerateFromPassword (Collaborators := stubs) "salt" "s3cret" DefaultCost
     = ("$2a$s3cret", None)
  /\ (snd (fst (Login (env := stubs) (alice_registered stubs) "alice" "guess" uuid1)) = None
      <-> CompareHashAndPassword (Collaborators := stubs) "$2a$s3cret" "guess" = None
          /\ snd (CreateToken (Collaborators := stubs) uuid1) = None).
Proof.
  assert (Register (env := stubs) NewUserService "alice" "s3cret" "salt"
          = (("REGISTER SUCCESSFUL", None), alice_registered stubs)) as Hr
    by (vm_compute; reflexivity).
  assert (GenerateFromPassword (Collaborators := stubs) "salt" "s3cret" DefaultCost
          = ("$2a$s3cret", None)) as Hg by (vm_compute; reflexivity).
  split; [exact Hr|]. split; [exact Hg|].
  exact (Login_checks_the_registered_hash (env := stubs) _ _ _ _ "guess" _ uuid1 _ _ Hr Hg).
Defined.
